(** * Toronto Open Data client: catalog client, file cache and facade

    A shallow embedding of [api.py] (class [TorontoOpenDataAPI]) and
    [core.py] (class [TorontoOpenData]), together with the properties the
    specification states about them.

    Python values are embedded as follows.
    - A catalog field (resource name, format, url) is a JSON string or
      JSON null; pandas adds NaN for a key that a record lacks.
    - A Python [dict] of such fields is a [gmap string pyval].
    - An exception is a value of [exn]; a computation that may raise
      returns an [outcome].
    - Code that touches the cache directory or the network threads a
      [World] through a state-and-exception monad [M].
    - [str.lower] is a parameter: what is proved about [load] holds for
      Python's own lowering. The scenarios, whose texts are ASCII, are
      evaluated with the lowering of the letters A to Z. *)

From Stdlib Require Import Ascii.
From stdpp Require Import gmap strings list fin_maps pretty.

Local Open Scope string_scope.
Local Open Scope list_scope.

(** ** Values *)

Inductive pyval :=
| PNone                 (* None / JSON null *)
| PNaN                  (* float('nan'), the fill value of pandas *)
| PStr (s : string).    (* str *)

#[global] Instance pyval_eq_dec : EqDecision pyval.
Proof. solve_decision. Defined.

(** [pd.isna] on a scalar. *)
Definition isna (v : pyval) : bool :=
  match v with
  | PNone | PNaN => true
  | PStr _ => false
  end.

(** A record of the catalog: a flat Python dict. *)
Abbreviation pydict := (gmap string pyval).

(** ** Exceptions *)

(** The classes of [ckanapi.errors] that derive from [CKANAPIError].
    [BaseError] stands for an instance of the base class itself, which
    ckanapi raises for an error reply it does not recognise. *)
Inductive ckan_class :=
| BaseError
| NotAuthorized
| NotFound
| ValidationError
| SearchQueryError
| SearchError
| SearchIndexError.

#[global] Instance ckan_class_eq_dec : EqDecision ckan_class.
Proof. solve_decision. Defined.

(** The pieces of an f-string: literal text, an interpolated [str], and an
    interpolated numpy array (here always [dataset['name'].values]). *)
Inductive fragment :=
| Lit (s : string)
| Fmt (s : string)
| FmtArray (vs : list pyval).

#[global] Instance fragment_eq_dec : EqDecision fragment.
Proof. solve_decision. Defined.

Inductive exn :=
| CKANAPIError (cls : ckan_class) (extra_msg : string)
| ServerIncompatibleError (detail : string)
    (* ckanapi.errors.ServerIncompatibleError: derives from Exception,
       not from CKANAPIError *)
| RequestException (detail : string)     (* transport failure, from requests *)
| KeyError (key : string)
| AttributeError (obj : pyval) (attr : string)
| IndexError
| TypeError (detail : string)
| ValueError (msg : list fragment)
| LoaderError (detail : string).         (* raised inside a loading routine *)

#[global] Instance exn_eq_dec : EqDecision exn.
Proof. solve_decision. Defined.

(** [isinstance(e, CKANAPIError)]: what [except CKANAPIError] catches. *)
Definition is_CKANAPIError (e : exn) : bool :=
  match e with
  | CKANAPIError _ _ => true
  | _ => false
  end.

(** The remote reported that the object does not exist. *)
Definition is_NotFound (e : exn) : bool :=
  match e with
  | CKANAPIError NotFound _ => true
  | _ => false
  end.

Inductive outcome (A : Type) :=
| Ret (a : A)
| Raise (e : exn).
Arguments Ret {A} a.
Arguments Raise {A} e.

#[global] Instance outcome_ret : MRet outcome := @Ret.
#[global] Instance outcome_bind : MBind outcome := λ A B f m,
  match m with
  | Ret a => f a
  | Raise e => Raise e
  end.

(** ** pandas *)

(** A frame built from records: the set of column labels and one row per
    record, every row defined on every column. *)
Record DataFrame := mkFrame {
  columns : gset string;
  rows : list pydict
}.

(** [pd.DataFrame(records)]: the columns are the keys that occur in some
    record; a record that lacks a key gets NaN there. *)
Definition pd_DataFrame (records : list pydict) : DataFrame :=
  let cols : gset string := ⋃ (dom <$> records) in
  {| columns := cols;
     rows := (λ r : pydict, r ∪ gset_to_gmap PNaN cols) <$> records |}.

(** [row[c]] *)
Definition row_getitem (row : pydict) (c : string) : outcome pyval :=
  match row !! c with
  | Some v => Ret v
  | None => Raise (KeyError c)
  end.

(** [df[c].values] *)
Definition column_values (df : DataFrame) (c : string) : outcome (list pyval) :=
  if decide (c ∈ columns df)
  then Ret ((λ row : pydict, default PNaN (row !! c)) <$> rows df)
  else Raise (KeyError c).

(** [x in arr] for a numpy array: [(arr == x).any()]. *)
Definition np_contains (x : pyval) (arr : list pyval) : bool :=
  existsb (λ v, bool_decide (v = x)) arr.

(** [rows[mask]]: keep the rows whose mask entry is true. *)
Fixpoint boolean_index (rs : list pydict) (mask : list bool) : list pydict :=
  match rs, mask with
  | r :: rs', b :: mask' =>
      if b then r :: boolean_index rs' mask' else boolean_index rs' mask'
  | _, _ => []
  end.

(** [df[df[c] == x]] *)
Definition select_eq (df : DataFrame) (c : string) (x : pyval) : outcome DataFrame :=
  col ← column_values df c;
  mret {| columns := columns df;
          rows := boolean_index (rows df) ((λ v, bool_decide (v = x)) <$> col) |}.

(** [df.iloc[0]] *)
Definition iloc0 (df : DataFrame) : outcome pydict :=
  match rows df with
  | r :: _ => Ret r
  | [] => Raise IndexError
  end.

(** [str(arr)], as an f-string renders the interpolated
    [dataset['name'].values]. What that array is depends on the pandas in
    use, and both kinds summarise a long array: the leading and the
    trailing elements are printed around an ellipsis.
    - An object [ndarray] is printed by numpy, whose print options
      summarise above 1000 elements to 3 and 3.
    - A pandas string array (pandas 3) is printed by pandas, which
      summarises above 100 elements to 10 and 10. *)
Record print_options := mkPrint {
  threshold : nat;
  edgeitems : nat
}.

Definition numpy_print : print_options :=
  {| threshold := 1000; edgeitems := 3 |}.

Definition pandas_print : print_options :=
  {| threshold := 100; edgeitems := 10 |}.

(** The elements that appear in the printed text. *)
Definition array_printed (o : print_options) (arr : list pyval) : list pyval :=
  if decide (threshold o < length arr)
  then take (edgeitems o) arr ++ drop (length arr - edgeitems o) arr
  else arr.

(** [v.lower()]: only a [str] has the method. [str_lower] is the method
    of [str] itself, Python's lowering of every cased character; its case
    tables are not reproduced here, and the definitions and theorems that
    depend on it take it as a parameter. *)
Definition lower_method (str_lower : string → string) (v : pyval)
  : outcome string :=
  match v with
  | PStr s => Ret (str_lower s)
  | _ => Raise (AttributeError v "lower")
  end.

(** The lowering of the letters A to Z. On a text of ASCII characters it
    is what [str.lower] computes; the scenarios, whose texts are ASCII,
    are evaluated with it. *)
Definition lower_ascii (c : ascii) : ascii :=
  let n := nat_of_ascii c in
  if decide (65 ≤ n ≤ 90)%nat then ascii_of_nat (n + 32) else c.

Fixpoint ascii_lower (s : string) : string :=
  match s with
  | EmptyString => EmptyString
  | String c s' => String (lower_ascii c) (ascii_lower s')
  end.

(** ** The remote catalog *)

(** The decoded reply of [package_show]: the scalar metadata of the
    dataset and, when the reply carries the key, its ['resources']. *)
Record package := mkPackage {
  pkg_metadata : pydict;
  pkg_resources : option (list pydict)
}.

(** The decoded reply of [package_search]; ['results'] may be missing. *)
Record search_reply := mkSearchReply {
  sr_count : nat;
  sr_results : option (list pydict)
}.

(** [RemoteCKAN(...).action]: each action either returns the decoded
    result or raises. *)
Record RemoteCKAN := mkCKAN {
  package_list : outcome (list string);
  package_search : string → outcome search_reply;
  package_show : string → outcome package
}.

(** [pkg['resources']] *)
Definition package_getitem_resources (pkg : package) : outcome (list pydict) :=
  match pkg_resources pkg with
  | Some rs => Ret rs
  | None => Raise (KeyError "resources")
  end.

(** ** api.py: class TorontoOpenDataAPI *)

Module api.

Record TorontoOpenDataAPI := mkAPI { ckan : RemoteCKAN }.

(** [Union[List[...], pd.DataFrame]] *)
Inductive listing (A : Type) :=
| AsList (l : list A)
| AsFrame (df : DataFrame).
Arguments AsList {A} l.
Arguments AsFrame {A} df.

Definition search_datasets (self : TorontoOpenDataAPI) (query : string)
    (as_frame : bool) : outcome (listing pydict) :=
  result ← package_search (ckan self) query;
  match sr_results result with
  | Some results =>
      if as_frame then mret (AsFrame (pd_DataFrame results))
      else mret (AsList results)
  | None => mret (AsList [])
  end.

(** The value [get_dataset_resources] hands back when the dataset was
    found is fixed by the flag: a frame for [as_frame=True], the plain
    list otherwise. *)
Definition resources_view (as_frame : bool) : Type :=
  if as_frame then DataFrame else list pydict.

Definition view_resources (as_frame : bool) (result : list pydict)
  : resources_view as_frame :=
  match as_frame with
  | true => pd_DataFrame result
  | false => result
  end.

Definition get_dataset_resources (self : TorontoOpenDataAPI) (name : string)
    (as_frame : bool) : outcome (option (resources_view as_frame)) :=
  match package_show (ckan self) name ≫= package_getitem_resources with
  | Raise e =>
      if is_CKANAPIError e then Ret None else Raise e
  | Ret result => Ret (Some (view_resources as_frame result))
  end.

Definition get_dataset_info (self : TorontoOpenDataAPI) (name : string)
  : outcome (option package) :=
  match package_show (ckan self) name with
  | Raise e =>
      if is_CKANAPIError e then Ret None else Raise e
  | Ret pkg => Ret (Some pkg)
  end.

End api.

(** ** The local machine and the network *)

(** What the cache and the loaders act on: the files below the cache
    directory, and two logs kept for the proofs, the URLs fetched over the
    network and the calls of [FileCache.download_file], oldest first. *)
Record World := mkWorld {
  files : gmap string string;
  transfers : list string;
  download_calls : list (string * string * string * bool)
}.

(** Computations that read or change the world and may raise. A raise
    keeps the effects that happened before it. *)
Definition M (A : Type) : Type := World → outcome A * World.

#[global] Instance M_ret : MRet M := λ A a w, (Ret a, w).
#[global] Instance M_bind : MBind M := λ A B f m w,
  match m w with
  | (Ret a, w') => f a w'
  | (Raise e, w') => (Raise e, w')
  end.

Definition raise {A} (e : exn) : M A := λ w, (Raise e, w).

(** A computation that does not touch the world. *)
Definition lift {A} (o : outcome A) : M A := λ w, (o, w).

(** ** cache.py: class FileCache *)

Module cache.
Section FileCache.

(** The file servers behind the resource URLs: the body served at a URL,
    or [None] when the transfer fails (network error, non-success
    status). *)
Variable requests_get : string → option string.

(** Modelled from the spec: cache.py is not among the sources; the class
    holds the configurable root directory of the cache. *)
Record FileCache := mkCache { cache_path : string }.

(** Modelled from the spec: the path of a cache entry, which cache.py
    derives from the names alone: one subdirectory per dataset name under
    the root, one file per resource name inside it. *)
Definition file_path (self : FileCache) (dataset resource : string) : string :=
  cache_path self +:+ "/" +:+ dataset +:+ "/" +:+ resource.

(** Modelled from the spec: [FileCache.file_exists] of cache.py, a
    presence check at the path of the entry. *)
Definition file_exists (self : FileCache) (dataset resource : string) : M bool :=
  λ w, (Ret (bool_decide (is_Some (files w !! file_path self dataset resource))), w).

(** Modelled from the spec: [FileCache.download_file] of cache.py. If the
    entry exists and [force] is false the path is returned without network
    activity; otherwise the resource is fetched from [url] and written to
    the path, and a failed transfer raises. *)
Definition download_file (self : FileCache) (dataset resource url : string)
    (force : bool) : M string :=
  λ w,
    let w := {| files := files w;
                transfers := transfers w;
                download_calls :=
                  download_calls w ++ [(dataset, resource, url, force)] |} in
    let target := file_path self dataset resource in
    if bool_decide (is_Some (files w !! target)) && negb force
    then (Ret target, w)
    else
      let w := {| files := files w;
                  transfers := transfers w ++ [url];
                  download_calls := download_calls w |} in
      match requests_get url with
      | None => (Raise (RequestException url), w)
      | Some body =>
          (Ret target,
           {| files := <[target := body]> (files w);
              transfers := transfers w;
              download_calls := download_calls w |})
      end.

(** Modelled from the spec: the valid URL of an entry, when it has one:
    the key is present and the value is not null. *)
Definition valid_url (resource : pydict) : option string :=
  match resource !! "url" with
  | Some (PStr url) => Some url
  | _ => None
  end.

(** Modelled from the spec: [resource['name']] used as a file name; a
    missing key and a null name raise. *)
Definition resource_name (resource : pydict) : outcome string :=
  match resource !! "name" with
  | Some (PStr n) => Ret n
  | Some _ => Raise (TypeError "name")
  | None => Raise (KeyError "name")
  end.

(** Modelled from the spec: [FileCache.download_dataset] of cache.py. It
    walks the resource list, applies [download_file] to each entry that
    has a valid URL and collects the names of those entries; an entry
    without a URL is passed over. *)
Fixpoint download_dataset (self : FileCache) (dataset : string)
    (resources : list pydict) (force : bool) : M (list string) :=
  match resources with
  | [] => mret []
  | resource :: rest =>
      match valid_url resource with
      | None => download_dataset self dataset rest force
      | Some url =>
          n ← lift (resource_name resource);
          _ ← download_file self dataset n url force;
          downloaded ← download_dataset self dataset rest force;
          mret (n :: downloaded)
      end
  end.

End FileCache.
End cache.

(** ** core.py: class TorontoOpenData *)

Module core.
Section TorontoOpenData.

Variable requests_get : string → option string.

(** [config.SMART_RETURN_FILETYPES]: config.py is not among the sources;
    the constant is a parameter. *)
Variable SMART_RETURN_FILETYPES : list string.

(** The in-memory objects the loading routines produce. *)
Variable object : Type.

(** The loading routine that loaders.py selects for a format, applied to
    the content of a file; [None] when the routine fails. *)
Variable deserialize : string → string → option object.

(** [str.lower], the method of Python's [str]. *)
Variable str_lower : string → string.

(** Modelled from the spec: [loader_factory.load_file] of loaders.py,
    which is not among the sources. It reads the file at the path with
    the routine of the format and returns the loaded object. *)
Definition load_file (file_path file_type : string) : M object :=
  λ w,
    match files w !! file_path with
    | None => (Raise (LoaderError file_path), w)
    | Some content =>
        match deserialize file_type content with
        | Some o => (Ret o, w)
        | None => (Raise (LoaderError file_type), w)
        end
    end.

Record TorontoOpenData := mkClient {
  api : api.TorontoOpenDataAPI;
  cache : cache.FileCache
}.

(** [Union[Path, Any]] *)
Inductive loaded :=
| Path (p : string)
| Object (o : object).

Definition newline : string := String "010"%char "".

(** The four messages of [load], [download_dataset] and
    [get_available_files]. *)
Definition msg_dataset_not_found (name : string) : list fragment :=
  [Lit "Dataset "; Fmt name; Lit " not found"].

Definition msg_specify_file (available_files : list pyval) : list fragment :=
  [Lit ("Please specify a file name from the following options:" +:+ newline);
   FmtArray available_files].

Definition msg_file_not_found (filename name : string)
    (available_files : list pyval) : list fragment :=
  [Lit "File "; Fmt filename; Lit " not found in dataset "; Fmt name;
   Lit (" with options:" +:+ newline); FmtArray available_files].

Definition msg_no_valid_url (filename name : string) : list fragment :=
  [Lit "File "; Fmt filename; Lit " in dataset "; Fmt name;
   Lit " does not have a valid url"].

Definition search_resources_by_name (self : TorontoOpenData) (name : string)
    (as_frame : bool) : outcome (option (api.resources_view as_frame)) :=
  api.get_dataset_resources (api self) name as_frame.

Definition download_dataset (self : TorontoOpenData) (name : string)
    (overwrite : bool) : M (list string) :=
  resources ← lift (api.get_dataset_resources (api self) name false);
  match resources with
  | None => raise (ValueError (msg_dataset_not_found name))
  | Some resources =>
      cache.download_dataset requests_get (cache self) name resources overwrite
  end.

Definition load (self : TorontoOpenData) (name : string)
    (filename : option string) (reload smart_return : bool) : M loaded :=
  (* Get dataset resources *)
  dataset ← lift (api.get_dataset_resources (api self) name true);
  match dataset with
  | None => raise (ValueError (msg_dataset_not_found name))
  | Some dataset =>
      match filename with
      | None =>
          (* If filename not specified, show available options *)
          available_files ← lift (column_values dataset "name");
          raise (ValueError (msg_specify_file available_files))
      | Some filename =>
          (* Verify file exists in dataset *)
          names ← lift (column_values dataset "name");
          if negb (np_contains (PStr filename) names) then
            available_files ← lift (column_values dataset "name");
            raise (ValueError (msg_file_not_found filename name available_files))
          else
            (* Get file URL and verify it's valid *)
            file_info ← lift (select_eq dataset "name" (PStr filename) ≫= iloc0);
            url ← lift (row_getitem file_info "url");
            match url with
            | PNone | PNaN =>           (* pd.isna(url) *)
                raise (ValueError (msg_no_valid_url filename name))
            | PStr url =>
                (* Get file type for smart return *)
                file_type ← lift (row_getitem file_info "format"
                                    ≫= lower_method str_lower);
                (* Download file if needed *)
                file_path ← cache.download_file requests_get (cache self)
                              name filename url reload;
                (* Return loaded object or file path *)
                if smart_return
                   && bool_decide (file_type ∈ SMART_RETURN_FILETYPES)
                then o ← load_file file_path file_type; mret (Object o)
                else mret (Path file_path)
            end
      end
  end.

Definition get_dataset_info (self : TorontoOpenData) (name : string)
  : outcome (option package) :=
  api.get_dataset_info (api self) name.

Definition get_available_files (self : TorontoOpenData) (name : string)
  : outcome (list pyval) :=
  dataset ← api.get_dataset_resources (api self) name true;
  match dataset with
  | None => Raise (ValueError (msg_dataset_not_found name))
  | Some dataset => column_values dataset "name"
  end.

Definition is_file_cached (self : TorontoOpenData) (name filename : string)
  : M bool :=
  cache.file_exists (cache self) name filename.

End TorontoOpenData.

Arguments Path {object} p.
Arguments Object {object} o.

End core.

(** ** Vocabulary of the specification *)

(** The values an error message shows: the printed elements of the arrays
    interpolated into it. *)
Definition printed_values (o : print_options) (msg : list fragment)
  : list pyval :=
  msg ≫= λ f, match f with FmtArray vs => array_printed o vs | _ => [] end.

(** The message of the error lists the value. *)
Definition message_lists (o : print_options) (e : exn) (v : pyval) : Prop :=
  match e with
  | ValueError msg => v ∈ printed_values o msg
  | _ => False
  end.

(** The four validation errors of [load] for a dataset name and a file
    name: dataset not found, file name omitted, file name not among the
    resources, and resource without a valid URL. *)
Definition validation_error (name : string) (filename : option string)
    (e : exn) : Prop :=
  e = ValueError (core.msg_dataset_not_found name)
  ∨ (filename = None ∧ ∃ names, e = ValueError (core.msg_specify_file names))
  ∨ (∃ fn names, filename = Some fn
       ∧ e = ValueError (core.msg_file_not_found fn name names))
  ∨ (∃ fn, filename = Some fn ∧ e = ValueError (core.msg_no_valid_url fn name)).

(** The URL of record [r] of a dataset is missing: the field is null, or
    the record lacks the key while another record of the dataset carries
    it, so that pandas fills the cell with NaN. *)
Definition url_missing (records : list pydict) (r : pydict) : Prop :=
  match r !! "url" with
  | Some v => isna v = true
  | None => ∃ r', r' ∈ records ∧ is_Some (r' !! "url")
  end.

(** The name under which pandas files a record. *)
Definition name_cell (r : pydict) : pyval := default PNaN (r !! "name").



(** ** Scenarios *)

(** The dataset of the specification's scenario. *)
Definition budget_resources : list pydict :=
  [ {[ "name" := PStr "2023.csv"; "format" := PStr "CSV";
       "url" := PStr "http://x/2023.csv" ]};
    {[ "name" := PStr "2023.pdf"; "format" := PStr "pdf"; "url" := PNone ]} ].

(** A dataset with two resources of the same name. *)
Definition reports_resources : list pydict :=
  [ {[ "name" := PStr "notes.txt"; "format" := PStr "txt";
       "url" := PStr "http://x/notes.txt" ]};
    {[ "name" := PStr "q1"; "format" := PStr "JSON";
       "url" := PStr "http://x/q1.json" ]};
    {[ "name" := PStr "q1"; "format" := PStr "pdf";
       "url" := PStr "http://x/q1.pdf" ]} ].

(** A dataset with 1001 resources, named 0 to 1000. *)
Definition archive_resource (i : nat) : pydict :=
  {[ "name" := PStr (pretty i); "format" := PStr "csv";
     "url" := PStr ("http://x/" +:+ pretty i) ]}.

Definition archive_resources : list pydict := archive_resource <$> seq 0 1001.

Definition toronto : RemoteCKAN :=
  {| package_list := Ret ["budget"; "reports"; "archive"];
     package_search := λ _, Ret {| sr_count := 0; sr_results := None |};
     package_show := λ name,
       if decide (name = "budget") then
         Ret {| pkg_metadata := {[ "title" := PStr "Budget" ]};
                pkg_resources := Some budget_resources |}
       else if decide (name = "reports") then
         Ret {| pkg_metadata := ∅; pkg_resources := Some reports_resources |}
       else if decide (name = "archive") then
         Ret {| pkg_metadata := ∅; pkg_resources := Some archive_resources |}
       else Raise (CKANAPIError NotFound "Not found") |}.

(** A portal that refuses every request: the dataset may well exist. *)
Definition restricted_portal : RemoteCKAN :=
  {| package_list := Raise (CKANAPIError NotAuthorized "Access denied");
     package_search := λ _, Raise (CKANAPIError NotAuthorized "Access denied");
     package_show := λ _, Raise (CKANAPIError NotAuthorized "Access denied") |}.

Definition client : core.TorontoOpenData :=
  core.mkClient (api.mkAPI toronto) (cache.mkCache "/cache").

(** File servers that answer every URL below http://x/. *)
Definition file_server (url : string) : option string :=
  if String.prefix "http://x/" url
  then Some ("content of " +:+ url) else None.

(** A loading routine that accepts every non-empty file. *)
Definition read_text (file_type content : string) : option string :=
  if decide (content = "") then None else Some (file_type +:+ ":" +:+ content).

(** The formats the scenarios load into memory. *)
Definition smart : list string := ["csv"; "json"].

Definition fresh : World :=
  {| files := ∅; transfers := []; download_calls := [] |}.

(** A world in which the first file of the budget dataset is cached. *)
Definition stocked : World :=
  {| files := {[ "/cache/budget/2023.csv" := "content of http://x/2023.csv" ]};
     transfers := ["http://x/2023.csv"];
     download_calls := [("budget", "2023.csv", "http://x/2023.csv", false)] |}.

(** A portal with the edge cases of the catalog: a dataset without
    resources, one whose resources carry no URL key, one whose resource has
    a null format, a reply without ['resources'], and a name for which the
    transport fails. *)
Definition edge_portal : RemoteCKAN :=
  {| package_list := Ret ["empty"; "bare"; "untyped"; "broken"];
     package_search := λ query,
       if decide (query = "(") then
         Raise (CKANAPIError SearchQueryError "Invalid search query")
       else Ret {| sr_count := 0; sr_results := Some [] |};
     package_show := λ name,
       if decide (name = "empty") then
         Ret {| pkg_metadata := ∅; pkg_resources := Some [] |}
       else if decide (name = "bare") then
         Ret {| pkg_metadata := ∅;
                pkg_resources :=
                  Some [ {[ "name" := PStr "a.csv"; "format" := PStr "csv" ]} ] |}
       else if decide (name = "untyped") then
         Ret {| pkg_metadata := ∅;
                pkg_resources :=
                  Some [ {[ "name" := PStr "a.bin"; "format" := PNone;
                            "url" := PStr "http://x/a.bin" ]} ] |}
       else if decide (name = "broken") then
         Ret {| pkg_metadata := {[ "title" := PStr "Broken" ]};
                pkg_resources := None |}
       else if decide (name = "offline") then
         Raise (RequestException "connection timed out")
       else Raise (CKANAPIError NotFound "Not found") |}.

Definition edge_client : core.TorontoOpenData :=
  core.mkClient (api.mkAPI edge_portal) (cache.mkCache "/cache").

(** * Properties *)

(** ** Frames built from records *)

Section Frames.

Implicit Types (records : list pydict) (r : pydict) (c : string).

Lemma frame_columns records c :
  c ∈ columns (pd_DataFrame records) ↔ ∃ r, r ∈ records ∧ is_Some (r !! c).
Proof.
  cbn. rewrite elem_of_union_list. split.
  - intros (X & HX & Hc). apply list_elem_of_fmap in HX as (r & -> & Hr).
    exists r. split; [done|]. by apply elem_of_dom.
  - intros (r & Hr & Hc). exists (dom r). split.
    + apply list_elem_of_fmap. by exists r.
    + by apply elem_of_dom.
Qed.

(** A row of the frame agrees with its record, up to the NaN fill. *)
Lemma filled_default r (cols : gset string) c :
  default PNaN ((r ∪ gset_to_gmap PNaN cols) !! c) = default PNaN (r !! c).
Proof.
  rewrite lookup_union. destruct (r !! c) as [v|] eqn:E; cbn.
  - by destruct (gset_to_gmap PNaN cols !! c).
  - destruct (gset_to_gmap PNaN cols !! c) as [v|] eqn:E'; [|done].
    by apply lookup_gset_to_gmap_Some in E' as [_ <-].
Qed.

Lemma filled_lookup r (cols : gset string) c :
  c ∈ cols →
  (r ∪ gset_to_gmap PNaN cols) !! c = Some (default PNaN (r !! c)).
Proof.
  intros Hc. rewrite lookup_union.
  assert (gset_to_gmap PNaN cols !! c = Some PNaN) as ->
    by by apply lookup_gset_to_gmap_Some.
  by destruct (r !! c).
Qed.

Lemma filled_lookup_None r (cols : gset string) c :
  c ∉ cols → r !! c = None →
  (r ∪ gset_to_gmap PNaN cols) !! c = None.
Proof.
  intros Hc Hr. rewrite lookup_union, Hr.
  assert (gset_to_gmap PNaN cols !! c = None) as ->; [|done].
  apply lookup_gset_to_gmap_None. done.
Qed.

Lemma column_values_frame records c :
  column_values (pd_DataFrame records) c =
    if decide (c ∈ columns (pd_DataFrame records))
    then Ret ((λ r, default PNaN (r !! c)) <$> records)
    else Raise (KeyError c).
Proof.
  unfold column_values. destruct (decide _); [|done]. f_equal. cbn.
  rewrite <- list_fmap_compose. apply list_fmap_ext. intros _ r _. cbn.
  apply filled_default.
Qed.

Lemma np_contains_elem (x : pyval) (arr : list pyval) :
  np_contains x arr = true ↔ x ∈ arr.
Proof.
  unfold np_contains. rewrite existsb_exists. split.
  - intros (v & Hv & Heq). apply bool_decide_eq_true in Heq as ->.
    by apply list_elem_of_In.
  - intros Hx. exists x. split; [by apply list_elem_of_In|].
    by apply bool_decide_eq_true.
Qed.

(** Selecting by a mask computed from the records keeps the first record
    that passes. *)
Lemma boolean_index_first {A} (f : A → pydict) (g : A → bool)
    (pre post : list A) (a : A) :
  Forall (λ x, g x = false) pre → g a = true →
  ∃ rest,
    boolean_index (f <$> (pre ++ a :: post)) (g <$> (pre ++ a :: post))
    = f a :: rest.
Proof.
  intros Hpre Ha. induction Hpre as [|x pre Hx _ IH]; cbn.
  - rewrite Ha. eauto.
  - rewrite Hx. exact IH.
Qed.

(** A value found in a list sits behind a prefix that lacks it. *)
Lemma first_occurrence {A} (P : A → Prop) `{∀ x, Decision (P x)} (l : list A) :
  Exists P l →
  ∃ pre a post, l = pre ++ a :: post ∧ Forall (λ x, ¬ P x) pre ∧ P a.
Proof.
  induction 1 as [a l Ha | a l _ IH].
  - exists [], a, l. split; [done|]. split; [constructor|done].
  - destruct (decide (P a)) as [Ha|Ha].
    + exists [], a, l. split; [done|]. split; [constructor|done].
    + destruct IH as (pre & b & post & -> & Hpre & Hb).
      exists (a :: pre), b, post. split; [done|].
      split; [by constructor|done].
Qed.

End Frames.

(** ** The catalog client *)

Section CatalogClient.

Implicit Types (self : api.TorontoOpenDataAPI) (name : string).

(** Whether the dataset is found does not depend on the flag. *)
Lemma resources_found self name (b : bool) rs :
  api.get_dataset_resources self name false = Ret (Some rs) →
  api.get_dataset_resources self name b = Ret (Some (api.view_resources b rs)).
Proof.
  unfold api.get_dataset_resources.
  destruct (package_show (api.ckan self) name ≫= package_getitem_resources)
    as [result|e]; [|by destruct (is_CKANAPIError e)].
  intros [= ->]. done.
Qed.

Lemma resources_absent self name (b b' : bool) :
  api.get_dataset_resources self name b = Ret None →
  api.get_dataset_resources self name b' = Ret None.
Proof.
  unfold api.get_dataset_resources.
  destruct (package_show (api.ckan self) name ≫= package_getitem_resources)
    as [result|e]; [done|].
  by destruct (is_CKANAPIError e).
Qed.

Lemma resources_absent_iff self name (b : bool) :
  api.get_dataset_resources self name b = Ret None ↔
  ∃ e, package_show (api.ckan self) name = Raise e ∧ is_CKANAPIError e = true.
Proof.
  unfold api.get_dataset_resources.
  destruct (package_show (api.ckan self) name) as [pkg|e]; cbn.
  - unfold package_getitem_resources.
    split; [|by intros (e & ? & _)].
    by destruct (pkg_resources pkg).
  - destruct (is_CKANAPIError e) eqn:E.
    + split; [eauto|done].
    + split; [done|]. intros (e' & [= <-] & He'). congruence.
Qed.

Lemma info_absent_iff self name :
  api.get_dataset_info self name = Ret None ↔
  ∃ e, package_show (api.ckan self) name = Raise e ∧ is_CKANAPIError e = true.
Proof.
  unfold api.get_dataset_info.
  destruct (package_show (api.ckan self) name) as [pkg|e].
  - split; [done|by intros (e & ? & _)].
  - destruct (is_CKANAPIError e) eqn:E.
    + split; [eauto|done].
    + split; [done|]. intros (e' & [= <-] & He'). congruence.
Qed.

(** The absent value does not imply that the remote signalled not-found:
    a portal that answers [package_show] with an authorization error makes
    [get_dataset_resources] return [None] as well. *)
Lemma absent_without_not_found :
  ¬ (∀ self name (as_frame : bool),
       api.get_dataset_resources self name as_frame = Ret None →
       ∃ e, package_show (api.ckan self) name = Raise e ∧ is_NotFound e = true).
Proof.
  intros H.
  destruct (H (api.mkAPI restricted_portal) "private" true eq_refl)
    as (e & [= <-] & He).
  discriminate He.
Qed.

(** What the handlers do: [get_dataset_resources] and [get_dataset_info]
    return the absent value exactly when [package_show] raises an instance
    of [CKANAPIError], of whatever subclass; a fault of another class
    ([ServerIncompatibleError], a transport failure) propagates unchanged,
    and so does the [KeyError] of a reply without ['resources']. *)
Lemma absent_iff_ckan_error self name (as_frame : bool) :
  (api.get_dataset_resources self name as_frame = Ret None ↔
     ∃ e, package_show (api.ckan self) name = Raise e ∧ is_CKANAPIError e = true)
  ∧ (api.get_dataset_info self name = Ret None ↔
     ∃ e, package_show (api.ckan self) name = Raise e ∧ is_CKANAPIError e = true)
  ∧ (∀ e, package_show (api.ckan self) name = Raise e →
          is_CKANAPIError e = false →
          api.get_dataset_resources self name as_frame = Raise e
          ∧ api.get_dataset_info self name = Raise e)
  ∧ (∀ pkg, package_show (api.ckan self) name = Ret pkg →
            pkg_resources pkg = None →
            api.get_dataset_resources self name as_frame
            = Raise (KeyError "resources")).
Proof.
  split; [apply resources_absent_iff|].
  split; [apply info_absent_iff|].
  unfold api.get_dataset_resources, api.get_dataset_info.
  split.
  - intros e -> He. cbn. by rewrite He.
  - intros pkg -> Hr. cbn. unfold package_getitem_resources. by rewrite Hr.
Qed.

(** C10: when the reply of [package_search] has no ['results'] key,
    [search_datasets] returns the plain empty list whatever [as_frame]
    is; with [as_frame=True] the result is still a list, not a frame. *)
Theorem search_without_results_is_empty_list self query (as_frame : bool) reply :
  package_search (api.ckan self) query = Ret reply →
  sr_results reply = None →
  api.search_datasets self query as_frame = Ret (api.AsList []).
Proof.
  intros Hq Hr. unfold api.search_datasets. rewrite Hq. cbn. by rewrite Hr.
Qed.

End CatalogClient.

(** ** The file cache *)

Section FileCacheProperties.

Variable requests_get : string → option string.

Implicit Types (self : cache.FileCache) (w : World).

(** C7: [download_file] goes to the network exactly when [force] is true
    or no entry exists at the path of the pair. With [force=false] and
    the entry present it returns that path and leaves the files alone;
    with [force=true] it always requests the URL. A returned path is an
    entry of the cache afterwards. *)
Theorem download_file_transfers self dataset resource url force w :
  let target := cache.file_path self dataset resource in
  let cached := bool_decide (is_Some (files w !! target)) in
  let '(r, w') :=
    cache.download_file requests_get self dataset resource url force w in
  transfers w' = transfers w ++ (if force || negb cached then [url] else [])
  ∧ (force = false → cached = true → r = Ret target ∧ files w' = files w)
  ∧ (force = true → transfers w' = transfers w ++ [url])
  ∧ (∀ p, r = Ret p → p = target ∧ is_Some (files w' !! target)).
Proof.
  unfold cache.download_file. cbn.
  destruct (bool_decide (is_Some (files w !! _))) eqn:Hc, force; cbn.
  - destruct (requests_get url); cbn;
      (split; [done|]); (split; [done|]); (split; [done|]);
      intros p [= <-]; split; [done|].
    rewrite lookup_insert_eq. eauto.
  - rewrite app_nil_r. repeat (split; [done|]).
    intros p [= <-]. split; [done|]. by apply bool_decide_eq_true in Hc.
  - destruct (requests_get url); cbn;
      (split; [done|]); (split; [done|]); (split; [done|]);
      intros p [= <-]; split; [done|].
    rewrite lookup_insert_eq. eauto.
  - destruct (requests_get url); cbn;
      (split; [done|]); (split; [done|]); (split; [done|]);
      intros p [= <-]; split; [done|].
    rewrite lookup_insert_eq. eauto.
Qed.

(** What one call of [download_file] leaves in the call log. *)
Lemma download_file_logged self dataset resource url force w r w' :
  cache.download_file requests_get self dataset resource url force w = (r, w') →
  download_calls w' = download_calls w ++ [(dataset, resource, url, force)].
Proof.
  unfold cache.download_file. cbn.
  destruct (_ && _); [by intros [= <- <-]|].
  destruct (requests_get url); by intros [= <- <-].
Qed.

Lemma download_file_result self dataset resource url force w r w' :
  cache.download_file requests_get self dataset resource url force w = (r, w') →
  r = Ret (cache.file_path self dataset resource)
  ∨ r = Raise (RequestException url).
Proof.
  unfold cache.download_file. cbn.
  destruct (_ && _); [intros [= <- <-]; by left|].
  destruct (requests_get url); intros [= <- <-]; [by left|by right].
Qed.



(** After a call with [force=false] that returned, a second call with the
    same arguments returns the same path and transfers nothing. *)
Lemma download_file_twice self dataset resource url w p w1 :
  cache.download_file requests_get self dataset resource url false w
  = (Ret p, w1) →
  ∃ w2,
    cache.download_file requests_get self dataset resource url false w1
    = (Ret p, w2)
    ∧ transfers w2 = transfers w1 ∧ files w2 = files w1.
Proof.
  intros H1.
  assert (p = cache.file_path self dataset resource
          ∧ is_Some (files w1 !! cache.file_path self dataset resource))
    as [-> Hin].
  { revert H1. unfold cache.download_file. cbn.
    destruct (bool_decide _) eqn:Hc; cbn.
    - intros [= <- <-]. split; [done|]. by apply bool_decide_eq_true in Hc.
    - destruct (requests_get url); [|done]. intros [= <- <-].
      split; [done|]. cbn. rewrite lookup_insert_eq. eauto. }
  unfold cache.download_file. cbn.
  rewrite (bool_decide_eq_true_2 _ Hin). cbn. eauto.
Qed.





End FileCacheProperties.

(** ** The facade *)

Section Facade.

Variable requests_get : string → option string.
Variable SMART_RETURN_FILETYPES : list string.
Variable object : Type.
Variable deserialize : string → string → option object.
Variable str_lower : string → string.

Implicit Types (self : core.TorontoOpenData) (w : World) (r : pydict).

Local Abbreviation load :=
  (core.load requests_get SMART_RETURN_FILETYPES object deserialize str_lower).
Local Abbreviation load_file := (core.load_file object deserialize).

Lemma frame_found self name rs :
  api.get_dataset_resources (core.api self) name false = Ret (Some rs) →
  api.get_dataset_resources (core.api self) name true
  = Ret (Some (pd_DataFrame rs)).
Proof. intros H. exact (resources_found _ _ true _ H). Qed.

Lemma name_cell_eq r (filename : string) :
  name_cell r = PStr filename ↔ r !! "name" = Some (PStr filename).
Proof.
  unfold name_cell. destruct (r !! "name") as [v|]; cbn; [|done].
  split; congruence.
Qed.

(** The row that [load] picks for a file name: the first record of the
    list that carries the name. *)
Lemma first_named_row (pre post : list pydict) r (filename : string) :
  let rs := pre ++ r :: post in
  Forall (λ x, x !! "name" ≠ Some (PStr filename)) pre →
  r !! "name" = Some (PStr filename) →
  column_values (pd_DataFrame rs) "name" = Ret (name_cell <$> rs)
  ∧ np_contains (PStr filename) (name_cell <$> rs) = true
  ∧ select_eq (pd_DataFrame rs) "name" (PStr filename) ≫= iloc0
    = Ret (r ∪ gset_to_gmap PNaN (columns (pd_DataFrame rs))).
Proof.
  intros rs Hpre Hr.
  assert ("name" ∈ columns (pd_DataFrame rs)) as Hcol.
  { apply frame_columns. exists r. split; [|by eauto].
    unfold rs. apply elem_of_app. right. by left. }
  assert (column_values (pd_DataFrame rs) "name" = Ret (name_cell <$> rs))
    as Hvals.
  { rewrite column_values_frame. by destruct (decide _). }
  split; [done|]. split.
  - apply np_contains_elem. apply list_elem_of_fmap. exists r.
    split; [symmetry; by apply name_cell_eq|].
    unfold rs. apply elem_of_app. right. by left.
  - unfold select_eq. rewrite Hvals. cbn [mbind outcome_bind mret outcome_ret].
    unfold iloc0. cbn [rows pd_DataFrame].
    rewrite <- list_fmap_compose.
    destruct (boolean_index_first
                (λ x : pydict, x ∪ gset_to_gmap PNaN (⋃ (dom <$> rs)))
                ((λ v, bool_decide (v = PStr filename)) ∘ name_cell)
                pre post r) as [rest Hrest].
    + eapply Forall_impl; [exact Hpre|]. intros x Hx. cbn.
      apply bool_decide_eq_false. by rewrite name_cell_eq.
    + cbn. apply bool_decide_eq_true. by apply name_cell_eq.
    + fold rs in Hrest. by rewrite Hrest.
Qed.

(** A name found in the name column belongs to some first record. *)
Lemma named_record_exists (rs : list pydict) (filename : string) :
  np_contains (PStr filename) (name_cell <$> rs) = true →
  ∃ pre r post,
    rs = pre ++ r :: post
    ∧ Forall (λ x, x !! "name" ≠ Some (PStr filename)) pre
    ∧ r !! "name" = Some (PStr filename).
Proof.
  intros Hin. apply np_contains_elem, list_elem_of_fmap in Hin as (r & Hr & Hin).
  apply (first_occurrence (λ x : pydict, x !! "name" = Some (PStr filename))).
  apply Exists_exists. exists r. split; [done|]. by apply name_cell_eq.
Qed.

(** C2: for a dataset name for which the catalog client returns the
    absent value, [load], [download_dataset] and [get_available_files]
    each raise the not-found error [Dataset <name> not found]; none of
    them returns a value, and the world is left as it was. *)
Theorem absent_dataset_not_found self name (as_frame : bool) :
  api.get_dataset_resources (core.api self) name as_frame = Ret None →
  (∀ filename reload smart_return w,
     load self name filename reload smart_return w
     = (Raise (ValueError (core.msg_dataset_not_found name)), w))
  ∧ (∀ overwrite w,
       core.download_dataset requests_get self name overwrite w
       = (Raise (ValueError (core.msg_dataset_not_found name)), w))
  ∧ core.get_available_files self name
    = Raise (ValueError (core.msg_dataset_not_found name)).
Proof.
  intros H.
  pose proof (resources_absent _ _ _ true H) as Ht.
  pose proof (resources_absent _ _ _ false H) as Hf.
  split; [|split].
  - intros filename reload smart_return w.
    unfold core.load. by rewrite Ht.
  - intros overwrite w. unfold core.download_dataset. by rewrite Hf.
  - unfold core.get_available_files. by rewrite Ht.
Qed.

Lemma frame_found_inv self name (df : DataFrame) :
  api.get_dataset_resources (core.api self) name true = Ret (Some df) →
  ∃ rs, api.get_dataset_resources (core.api self) name false = Ret (Some rs)
        ∧ df = pd_DataFrame rs.
Proof.
  unfold api.get_dataset_resources.
  destruct (package_show _ name ≫= package_getitem_resources) as [rs|e].
  - intros [= <-]. by exists rs.
  - by destruct (is_CKANAPIError e).
Qed.

Lemma filled_lookup_str r (cols : gset string) (c s : string) :
  (r ∪ gset_to_gmap PNaN cols) !! c = Some (PStr s) → r !! c = Some (PStr s).
Proof.
  rewrite lookup_union. destruct (r !! c) as [v|] eqn:E; cbn.
  - by destruct (gset_to_gmap PNaN cols !! c).
  - destruct (gset_to_gmap PNaN cols !! c) as [v|] eqn:E'; [|done].
    by apply lookup_gset_to_gmap_Some in E' as [_ <-].
Qed.

Lemma filled_lookup_Some r (cols : gset string) (c : string) v :
  r !! c = Some v → (r ∪ gset_to_gmap PNaN cols) !! c = Some v.
Proof.
  intros Hr. rewrite lookup_union, Hr.
  by destruct (gset_to_gmap PNaN cols !! c).
Qed.

(** What [load] does once the dataset is there and the row of the file
    name has been picked: lines 132 to 146 of core.py. *)
Lemma load_on_row self name (filename : string) reload smart_return
    (pre post : list pydict) r w :
  let rs := pre ++ r :: post in
  let file_info := r ∪ gset_to_gmap PNaN (columns (pd_DataFrame rs)) in
  api.get_dataset_resources (core.api self) name false = Ret (Some rs) →
  Forall (λ x, x !! "name" ≠ Some (PStr filename)) pre →
  r !! "name" = Some (PStr filename) →
  load self name (Some filename) reload smart_return w =
    (url ← lift (row_getitem file_info "url");
     match url with
     | PNone | PNaN => raise (ValueError (core.msg_no_valid_url filename name))
     | PStr url =>
         file_type ← lift (row_getitem file_info "format" ≫= lower_method str_lower);
         file_path ← cache.download_file requests_get (core.cache self)
                       name filename url reload;
         if smart_return && bool_decide (file_type ∈ SMART_RETURN_FILETYPES)
         then o ← load_file file_path file_type; mret (core.Object o)
         else mret (core.Path file_path)
     end) w.
Proof.
  intros rs file_info Hrs Hpre Hr.
  destruct (first_named_row pre post r filename Hpre Hr) as (Hcol & Hin & Hsel).
  fold rs in Hcol, Hin, Hsel.
  unfold core.load. rewrite (frame_found _ _ _ Hrs).
  unfold mbind at 1, M_bind at 1, lift at 1.
  unfold mbind at 1, M_bind at 1, lift at 1. rewrite Hcol, Hin.
  cbn [negb]. unfold mbind at 1, M_bind at 1, lift at 1. rewrite Hsel.
  reflexivity.
Qed.

(** The same, for a record whose URL and format are strings: the file is
    fetched from that URL and the format decides what is returned. *)
Lemma load_downloads_row self name (filename : string) reload smart_return
    (pre post : list pydict) r (url fmt : string) w :
  api.get_dataset_resources (core.api self) name false
  = Ret (Some (pre ++ r :: post)) →
  Forall (λ x, x !! "name" ≠ Some (PStr filename)) pre →
  r !! "name" = Some (PStr filename) →
  r !! "url" = Some (PStr url) →
  r !! "format" = Some (PStr fmt) →
  load self name (Some filename) reload smart_return w =
    (file_path ← cache.download_file requests_get (core.cache self)
                   name filename url reload;
     if smart_return && bool_decide (str_lower fmt ∈ SMART_RETURN_FILETYPES)
     then o ← load_file file_path (str_lower fmt); mret (core.Object o)
     else mret (core.Path file_path)) w.
Proof.
  intros Hrs Hpre Hr Hurl Hfmt.
  rewrite (load_on_row _ _ _ _ _ _ _ _ _ Hrs Hpre Hr).
  unfold row_getitem.
  rewrite (filled_lookup_Some _ _ _ _ Hurl), (filled_lookup_Some _ _ _ _ Hfmt).
  reflexivity.
Qed.

(** Every call of [load] either raises before it reaches the cache,
    leaving the world as it was, or has found a first record of the file
    name whose URL and format are strings. *)
Lemma load_cases self name filename reload smart_return w :
  (∃ e, load self name filename reload smart_return w = (Raise e, w))
  ∨ (∃ fn pre r post url fmt,
       filename = Some fn
       ∧ api.get_dataset_resources (core.api self) name false
         = Ret (Some (pre ++ r :: post))
       ∧ Forall (λ x, x !! "name" ≠ Some (PStr fn)) pre
       ∧ r !! "name" = Some (PStr fn)
       ∧ r !! "url" = Some (PStr url)
       ∧ r !! "format" = Some (PStr fmt)).
Proof.
  destruct (api.get_dataset_resources (core.api self) name true)
    as [[df|]|e] eqn:Hget.
  2,3: left; eexists; unfold core.load; rewrite Hget; reflexivity.
  destruct (frame_found_inv _ _ _ Hget) as (rs & Hrs & ->).
  destruct filename as [fn|].
  2: { left. unfold core.load. rewrite Hget.
       unfold mbind at 1, M_bind at 1, lift at 1.
       unfold mbind at 1, M_bind at 1, lift at 1.
       destruct (column_values _ _); eexists; reflexivity. }
  destruct (column_values (pd_DataFrame rs) "name") as [names|e] eqn:Hcol.
  2: { left. unfold core.load. rewrite Hget.
       unfold mbind at 1, M_bind at 1, lift at 1.
       unfold mbind at 1, M_bind at 1, lift at 1.
       rewrite Hcol. eexists; reflexivity. }
  destruct (np_contains (PStr fn) names) eqn:Hin.
  2: { left. unfold core.load. rewrite Hget.
       unfold mbind at 1, M_bind at 1, lift at 1.
       unfold mbind at 1, M_bind at 1, lift at 1.
       rewrite Hcol, Hin. cbn [negb]. eexists; reflexivity. }
  assert (names = name_cell <$> rs) as ->.
  { rewrite column_values_frame in Hcol.
    destruct (decide _); [by injection Hcol as <-|done]. }
  destruct (named_record_exists _ _ Hin) as (pre & r & post & -> & Hpre & Hr).
  pose proof (load_on_row self name fn reload smart_return pre post r w
                Hrs Hpre Hr) as Hload.
  cbv zeta in Hload.
  set (file_info := r ∪ gset_to_gmap PNaN _) in Hload.
  unfold row_getitem in Hload.
  destruct (file_info !! "url") as [[| |url]|] eqn:Hurl.
  1,2,4: left; eexists; rewrite Hload; reflexivity.
  destruct (file_info !! "format") as [[| |fmt]|] eqn:Hfmt.
  1,2,4: left; eexists; rewrite Hload; reflexivity.
  right. exists fn, pre, r, post, url, fmt.
  apply filled_lookup_str in Hurl, Hfmt. done.
Qed.

(** What the part of [load] after the checks can raise. *)
Lemma load_tail_raises self name (filename url file_type : string)
    reload smart_return w e w' :
  (file_path ← cache.download_file requests_get (core.cache self)
                 name filename url reload;
   if smart_return && bool_decide (file_type ∈ SMART_RETURN_FILETYPES)
   then o ← load_file file_path file_type; mret (core.Object o)
   else mret (core.Path file_path)) w = (Raise e, w') →
  e = RequestException url ∨ ∃ detail, e = LoaderError detail.
Proof.
  unfold mbind at 1, M_bind at 1.
  destruct (cache.download_file _ _ _ _ _ _ _) as [[p|e0] w1] eqn:Hdl.
  - destruct (_ && _); [|done].
    unfold mbind, M_bind, core.load_file.
    destruct (files w1 !! p) as [content|]; [|intros [= <- <-]; eauto].
    destruct (deserialize file_type content); [done|].
    intros [= <- <-]. eauto.
  - intros [= <- <-]. left.
    by destruct (download_file_result _ _ _ _ _ _ _ _ _ Hdl) as [|[= ->]].
Qed.

(** When the URL cell of the row that [load] picks is null (a null
    field, or a key the record lacks and another record of the dataset
    has), the call raises the missing-URL error, which is neither of the
    not-found errors, and the world is untouched: no call of
    [download_file] has been logged, nothing was transferred or written. *)
Lemma missing_url_is_signalled self name (filename : string)
    reload smart_return (pre post : list pydict) r w :
  api.get_dataset_resources (core.api self) name false
  = Ret (Some (pre ++ r :: post)) →
  Forall (λ x, x !! "name" ≠ Some (PStr filename)) pre →
  r !! "name" = Some (PStr filename) →
  url_missing (pre ++ r :: post) r →
  load self name (Some filename) reload smart_return w
  = (Raise (ValueError (core.msg_no_valid_url filename name)), w)
  ∧ core.msg_no_valid_url filename name ≠ core.msg_dataset_not_found name
  ∧ ∀ names, core.msg_no_valid_url filename name
             ≠ core.msg_file_not_found filename name names.
Proof.
  intros Hrs Hpre Hr Hurl. split; [|split; [|intros names]; by intros [=]].
  rewrite (load_on_row _ _ _ _ _ _ _ _ _ Hrs Hpre Hr).
  unfold row_getitem, url_missing in *.
  destruct (r !! "url") as [v|] eqn:E.
  - rewrite (filled_lookup_Some _ _ _ _ E). by destruct v.
  - rewrite (filled_lookup r _ "url"), E; [done|]. by apply frame_columns.
Qed.




(** C8: a call of [load] that raises one of its validation errors leaves
    the world as it found it: the log of [download_file] calls, the log of
    transfers and the files of the cache are those from before the call. *)
Theorem validation_error_leaves_cache self name filename reload smart_return
    w e w' :
  load self name filename reload smart_return w = (Raise e, w') →
  validation_error name filename e →
  w' = w.
Proof.
  intros Hload Hval.
  destruct (load_cases self name filename reload smart_return w)
    as [[e0 He]|(fn & pre & r & post & url & fmt & -> & Hrs & Hpre & Hr & Hurl & Hfmt)];
    [congruence|].
  rewrite (load_downloads_row _ _ _ _ _ _ _ _ _ _ _ Hrs Hpre Hr Hurl Hfmt)
    in Hload.
  apply load_tail_raises in Hload as [->|[detail ->]];
    destruct Hval as [?|[(_ & ? & ?)|[(? & ? & _ & ?)|(? & _ & ?)]]];
    discriminate.
Qed.

Lemma array_printed_short (o : print_options) (arr : list pyval) :
  (length arr ≤ threshold o)%nat → array_printed o arr = arr.
Proof. intros Hlen. unfold array_printed. destruct (decide _); [lia|done]. Qed.

(** As long as the name array is printed in full, that is for a dataset
    of no more resources than the print threshold, a call of [load] whose
    file name is omitted or matches no resource raises, without touching
    the world, an error whose message lists every name of the dataset;
    when some resource carries a name the error is the [ValueError] that
    interpolates the whole name column. *)
Lemma unmatched_filename_lists_names (o : print_options) self name filename
    reload smart_return (rs : list pydict) w :
  api.get_dataset_resources (core.api self) name false = Ret (Some rs) →
  (length rs ≤ threshold o)%nat →
  match filename with
  | None => True
  | Some fn => Forall (λ x, x !! "name" ≠ Some (PStr fn)) rs
  end →
  ∃ e,
    load self name filename reload smart_return w = (Raise e, w)
    ∧ (∀ r v, r ∈ rs → r !! "name" = Some v → message_lists o e v)
    ∧ ("name" ∈ columns (pd_DataFrame rs) →
       e = ValueError
             match filename with
             | None => core.msg_specify_file (name_cell <$> rs)
             | Some fn => core.msg_file_not_found fn name (name_cell <$> rs)
             end).
Proof.
  intros Hrs Hlen Hfile.
  assert (∀ r v, r ∈ rs → r !! "name" = Some v →
                 v ∈ array_printed o (name_cell <$> rs)) as Hlisted.
  { intros r v Hin Hv. rewrite array_printed_short by by rewrite length_fmap.
    apply list_elem_of_fmap. exists r. split; [|done].
    unfold name_cell. by rewrite Hv. }
  pose proof (column_values_frame rs "name") as Hcol.
  unfold core.load. rewrite (frame_found _ _ _ Hrs).
  unfold mbind at 1, M_bind at 1, lift at 1.
  unfold mbind at 1, M_bind at 1, lift at 1. rewrite Hcol.
  destruct (decide ("name" ∈ columns (pd_DataFrame rs))) as [Hin|Hnin].
  - fold name_cell. destruct filename as [fn|].
    + assert (np_contains (PStr fn) (name_cell <$> rs) = false) as ->.
      { apply not_true_is_false. intros Hc.
        apply named_record_exists in Hc as (pre & r & post & -> & _ & Hr).
        apply Forall_app in Hfile as [_ Hfile].
        by apply Forall_cons in Hfile as [Hne _]. }
      eexists. split; [reflexivity|]. split; [|done].
      intros r v Hr Hv. cbn. rewrite app_nil_r. eauto.
    + eexists. split; [reflexivity|]. split; [|done].
      intros r v Hr Hv. cbn. rewrite app_nil_r. eauto.
  - assert (∀ r v, r ∈ rs → r !! "name" = Some v → False) as Hnone.
    { intros r v Hr Hv. apply Hnin, frame_columns. eauto. }
    destruct filename; (eexists; split; [reflexivity|]);
      (split; [|done]); intros r v Hr Hv; by destruct (Hnone r v).
Qed.


End Facade.

(** ** The scenarios, evaluated *)

Section Scenarios.

Local Abbreviation load := (core.load file_server smart string read_text ascii_lower).

Lemma search_without_results_witness :
  api.search_datasets (api.mkAPI toronto) "budget" true = Ret (api.AsList []).
Proof.
  apply (search_without_results_is_empty_list
           (api.mkAPI toronto) "budget" true
           {| sr_count := 0; sr_results := None |});
    reflexivity.
Defined.

Lemma absent_dataset_witness :
  api.get_dataset_resources (api.mkAPI toronto) "nonexistent" true = Ret None
  ∧ (∀ filename reload smart_return w,
       load client "nonexistent" filename reload smart_return w
       = (Raise (ValueError (core.msg_dataset_not_found "nonexistent")), w))
  ∧ (∀ overwrite w,
       core.download_dataset file_server client "nonexistent" overwrite w
       = (Raise (ValueError (core.msg_dataset_not_found "nonexistent")), w))
  ∧ core.get_available_files client "nonexistent"
    = Raise (ValueError (core.msg_dataset_not_found "nonexistent")).
Proof.
  split; [reflexivity|].
  apply (absent_dataset_not_found file_server smart string read_text ascii_lower
           client "nonexistent" true).
  reflexivity.
Defined.

Lemma missing_url_witness :
  load client "budget" (Some "2023.pdf") false true stocked
  = (Raise (ValueError (core.msg_no_valid_url "2023.pdf" "budget")), stocked)
  ∧ core.msg_no_valid_url "2023.pdf" "budget"
    ≠ core.msg_dataset_not_found "budget"
  ∧ ∀ names, core.msg_no_valid_url "2023.pdf" "budget"
             ≠ core.msg_file_not_found "2023.pdf" "budget" names.
Proof.
  apply (missing_url_is_signalled file_server smart string read_text ascii_lower
           client "budget" "2023.pdf" false true
           [ {[ "name" := PStr "2023.csv"; "format" := PStr "CSV";
                "url" := PStr "http://x/2023.csv" ]} ]
           []
           {[ "name" := PStr "2023.pdf"; "format" := PStr "pdf";
              "url" := PNone ]}
           stocked).
  - reflexivity.
  - repeat constructor. vm_compute. discriminate.
  - reflexivity.
  - reflexivity.
Defined.




Lemma validation_error_witness :
  load client "budget" (Some "missing.csv") true true stocked
  = (Raise (ValueError (core.msg_file_not_found "missing.csv" "budget"
                          [PStr "2023.csv"; PStr "2023.pdf"])), stocked)
  ∧ stocked = stocked.
Proof.
  split; [vm_compute; reflexivity|].
  apply (validation_error_leaves_cache file_server smart string read_text
           ascii_lower
           client "budget" (Some "missing.csv") true true stocked
           (ValueError (core.msg_file_not_found "missing.csv" "budget"
                          [PStr "2023.csv"; PStr "2023.pdf"]))
           stocked).
  - vm_compute. reflexivity.
  - right. right. left. eauto.
Defined.

Lemma unmatched_filename_witness :
  ∃ e,
    load client "budget" (Some "missing.csv") false true fresh = (Raise e, fresh)
    ∧ (∀ r v, r ∈ budget_resources → r !! "name" = Some v →
              message_lists numpy_print e v)
    ∧ ("name" ∈ columns (pd_DataFrame budget_resources) →
       e = ValueError (core.msg_file_not_found "missing.csv" "budget"
                         (name_cell <$> budget_resources))).
Proof.
  apply (unmatched_filename_lists_names file_server smart string read_text
           ascii_lower numpy_print
           client "budget" (Some "missing.csv") false true
           budget_resources fresh).
  - reflexivity.
  - cbn. lia.
  - repeat constructor; vm_compute; discriminate.
Defined.


(** C1: the handler [except CKANAPIError] is broader than not-found. A
    portal answers [package_show] for a private dataset with an
    authorization error, which is not the not-found signal;
    [get_dataset_resources], for either flag, and [get_dataset_info]
    return the absent value instead of letting the fault through. *)
Theorem unauthorized_dataset_reads_as_absent :
  package_show restricted_portal "private"
  = Raise (CKANAPIError NotAuthorized "Access denied")
  ∧ is_NotFound (CKANAPIError NotAuthorized "Access denied") = false
  ∧ api.get_dataset_resources (api.mkAPI restricted_portal) "private" true
    = Ret None
  ∧ api.get_dataset_resources (api.mkAPI restricted_portal) "private" false
    = Ret None
  ∧ api.get_dataset_info (api.mkAPI restricted_portal) "private" = Ret None.
Proof. repeat split. Qed.

(** C3: a resource whose URL is absent, in a dataset where no resource
    has one. The only resource of the dataset has a name and a format and
    no ['url'] key; [load] of that file raises [KeyError] on the missing
    column, not the missing-URL error. The cache is not touched. *)
Theorem absent_url_raises_key_error :
  api.get_dataset_resources (core.api edge_client) "bare" false
  = Ret (Some [ {[ "name" := PStr "a.csv"; "format" := PStr "csv" ]} ])
  ∧ ({[ "name" := PStr "a.csv"; "format" := PStr "csv" ]} : pydict) !! "url"
    = None
  ∧ load edge_client "bare" (Some "a.csv") false true fresh
    = (Raise (KeyError "url"), fresh)
  ∧ KeyError "url" ≠ ValueError (core.msg_no_valid_url "a.csv" "bare").
Proof.
  split; [reflexivity|]. split; [reflexivity|].
  split; [vm_compute; reflexivity|discriminate].
Qed.

(** C5: a long list of names is cut. On a dataset of 1001 resources the
    error of [load] without a file name interpolates the name column,
    which is printed abbreviated whichever array pandas hands out, and
    the name [500] of the dataset does not appear in the message. *)
Theorem long_listing_is_abbreviated :
  load client "archive" None false true fresh
  = (Raise (ValueError
              (core.msg_specify_file (name_cell <$> archive_resources))),
     fresh)
  ∧ (∃ r, r ∈ archive_resources ∧ r !! "name" = Some (PStr "500"))
  ∧ ¬ message_lists numpy_print
        (ValueError (core.msg_specify_file (name_cell <$> archive_resources)))
        (PStr "500")
  ∧ ¬ message_lists pandas_print
        (ValueError (core.msg_specify_file (name_cell <$> archive_resources)))
        (PStr "500").
Proof.
  split; [vm_compute; reflexivity|]. split; [|split].
  - exists (archive_resource 500). split; [|vm_compute; reflexivity].
    apply list_elem_of_fmap. exists 500. split; [done|].
    apply elem_of_seq. lia.
  - unfold message_lists.
    apply (bool_decide_eq_false (PStr "500" ∈ _)). vm_compute. reflexivity.
  - unfold message_lists.
    apply (bool_decide_eq_false (PStr "500" ∈ _)). vm_compute. reflexivity.
Qed.

End Scenarios.

(** ** Further properties of the catalog client *)

Section CatalogClientViews.

Implicit Types (self : api.TorontoOpenDataAPI) (name : string).

(** X1: The two views of [get_dataset_resources] agree: the frame is the
    [pd.DataFrame] of the list, and absence and faults are the same for
    both values of the flag. *)
Theorem resources_views_agree self name :
  api.get_dataset_resources self name true =
    match api.get_dataset_resources self name false with
    | Ret (Some rs) => Ret (Some (pd_DataFrame rs))
    | Ret None => Ret None
    | Raise e => Raise e
    end.
Proof.
  unfold api.get_dataset_resources.
  destruct (package_show (api.ckan self) name ≫= package_getitem_resources)
    as [rs|e]; [done|].
  by destruct (is_CKANAPIError e).
Qed.

(** X2: [get_dataset_info] and [get_dataset_resources] tell the same story
    about a dataset, with one exception: for a reply that lacks
    ['resources'] the former returns the reply and the latter raises
    [KeyError]. *)
Theorem info_and_resources_agree self name (as_frame : bool) :
  api.get_dataset_resources self name as_frame =
    match api.get_dataset_info self name with
    | Ret (Some pkg) =>
        match pkg_resources pkg with
        | Some rs => Ret (Some (api.view_resources as_frame rs))
        | None => Raise (KeyError "resources")
        end
    | Ret None => Ret None
    | Raise e => Raise e
    end.
Proof.
  unfold api.get_dataset_resources, api.get_dataset_info.
  destruct (package_show (api.ckan self) name) as [pkg|e]; cbn.
  - unfold package_getitem_resources. by destruct (pkg_resources pkg).
  - by destruct (is_CKANAPIError e).
Qed.

Lemma raised_is_not_ckan self name (as_frame : bool) e :
  api.get_dataset_resources self name as_frame = Raise e
  ∨ api.get_dataset_info self name = Raise e →
  is_CKANAPIError e = false.
Proof.
  unfold api.get_dataset_resources, api.get_dataset_info.
  destruct (package_show (api.ckan self) name) as [pkg|e0]; cbn.
  - unfold package_getitem_resources.
    destruct (pkg_resources pkg); intros [H|H]; try done.
    by injection H as <-.
  - destruct (is_CKANAPIError e0) eqn:E; intros [H|H]; try done;
      by injection H as <-.
Qed.

(** X3: No [CKANAPIError] ever leaves [get_dataset_resources] or
    [get_dataset_info]: an exception they raise is of another class. *)
Theorem no_ckan_error_escapes self name (as_frame : bool) e :
  api.get_dataset_resources self name as_frame = Raise e
  ∨ api.get_dataset_info self name = Raise e →
  is_CKANAPIError e = false.
Proof. apply raised_is_not_ckan. Qed.

(** X4: [search_datasets] translates nothing: it raises exactly the faults of
    [package_search], a [CKANAPIError] included, and it never returns a
    frame unless [as_frame] is set and the reply has a ['results'] key. *)
Theorem search_datasets_faults_and_shape self query (as_frame : bool) :
  (∀ e, api.search_datasets self query as_frame = Raise e ↔
        package_search (api.ckan self) query = Raise e)
  ∧ (∀ df, api.search_datasets self query as_frame = Ret (api.AsFrame df) ↔
           as_frame = true
           ∧ ∃ reply results,
               package_search (api.ckan self) query = Ret reply
               ∧ sr_results reply = Some results
               ∧ df = pd_DataFrame results).
Proof.
  unfold api.search_datasets.
  destruct (package_search (api.ckan self) query) as [reply|e0]; cbn.
  - split; [by destruct (sr_results reply), as_frame|].
    intros df. split.
    + destruct (sr_results reply) as [results|] eqn:Hres; [|done].
      destruct as_frame; [|done]. intros [= <-].
      split; [done|]. by exists reply, results.
    + intros (-> & reply' & results' & [= <-] & -> & ->). done.
  - split; [intros e; split; congruence|]. intros df; split; [done|].
    by intros (_ & ? & ? & ? & _).
Qed.

End CatalogClientViews.

(** ** Further properties of the facade *)

Section FacadeEdges.

Variable requests_get : string → option string.
Variable SMART_RETURN_FILETYPES : list string.
Variable object : Type.
Variable deserialize : string → string → option object.
Variable str_lower : string → string.

Implicit Types (self : core.TorontoOpenData) (w : World) (r : pydict).

Local Abbreviation load :=
  (core.load requests_get SMART_RETURN_FILETYPES object deserialize str_lower).
Local Abbreviation load_file := (core.load_file object deserialize).

Lemma resources_raise self name (b b' : bool) e :
  api.get_dataset_resources (core.api self) name b = Raise e →
  api.get_dataset_resources (core.api self) name b' = Raise e.
Proof.
  unfold api.get_dataset_resources.
  destruct (package_show _ name ≫= package_getitem_resources) as [rs|e0];
    [done|].
  destruct (is_CKANAPIError e0); [done|]. by intros [= ->].
Qed.

Lemma name_column_exists (rs : list pydict) :
  "name" ∈ columns (pd_DataFrame rs) ↔ Exists (λ r, is_Some (r !! "name")) rs.
Proof. rewrite frame_columns, Exists_exists. done. Qed.

(** X5: The facade has no handler of its own: a fault that leaves
    [get_dataset_resources] reaches the caller of [load],
    [download_dataset] and [get_available_files] as it is, before the
    cache is touched. *)
Theorem catalog_fault_reaches_caller self name (as_frame : bool) e :
  api.get_dataset_resources (core.api self) name as_frame = Raise e →
  (∀ filename reload smart_return w,
     load self name filename reload smart_return w = (Raise e, w))
  ∧ (∀ overwrite w,
       core.download_dataset requests_get self name overwrite w = (Raise e, w))
  ∧ core.get_available_files self name = Raise e.
Proof.
  intros H.
  pose proof (resources_raise _ _ _ true _ H) as Ht.
  pose proof (resources_raise _ _ _ false _ H) as Hf.
  split; [|split].
  - intros filename reload smart_return w. unfold core.load. by rewrite Ht.
  - intros overwrite w. unfold core.download_dataset. by rewrite Hf.
  - unfold core.get_available_files. by rewrite Ht.
Qed.

(** X6: [get_available_files] returns the name column of the dataset: one
    entry per resource in the order of the catalog, duplicates kept, NaN
    for a resource that lacks the key. That needs one resource with the
    key. *)
Theorem available_files_are_name_column self name (rs : list pydict) :
  api.get_dataset_resources (core.api self) name false = Ret (Some rs) →
  Exists (λ r, is_Some (r !! "name")) rs →
  core.get_available_files self name = Ret (name_cell <$> rs)
  ∧ length (name_cell <$> rs) = length rs.
Proof.
  intros Hrs Hex. split; [|apply length_fmap].
  unfold core.get_available_files. rewrite (frame_found _ _ _ Hrs). cbn.
  rewrite column_values_frame.
  destruct (decide _) as [|Hn]; [done|]. by apply name_column_exists in Hex.
Qed.

(** X7: On a dataset none of whose resources has a ['name'] key, the empty
    resource list included, the frame has no such column:
    [get_available_files] raises [KeyError] instead of returning an empty
    list, and so does [load] for every file name, given or omitted. *)
Theorem nameless_dataset_key_error self name (rs : list pydict) :
  api.get_dataset_resources (core.api self) name false = Ret (Some rs) →
  Forall (λ r, r !! "name" = None) rs →
  core.get_available_files self name = Raise (KeyError "name")
  ∧ ∀ filename reload smart_return w,
      load self name filename reload smart_return w
      = (Raise (KeyError "name"), w).
Proof.
  intros Hrs Hnone.
  assert (column_values (pd_DataFrame rs) "name" = Raise (KeyError "name"))
    as Hcol.
  { rewrite column_values_frame. destruct (decide _) as [Hin|]; [|done].
    apply name_column_exists, Exists_exists in Hin as (r & Hr & [v Hv]).
    rewrite Forall_forall in Hnone. by rewrite (Hnone r Hr) in Hv. }
  split.
  - unfold core.get_available_files. rewrite (frame_found _ _ _ Hrs). done.
  - intros filename reload smart_return w.
    unfold core.load. rewrite (frame_found _ _ _ Hrs).
    unfold mbind at 1, M_bind at 1, lift at 1.
    destruct filename;
      unfold mbind at 1, M_bind at 1, lift at 1; by rewrite Hcol.
Qed.

(** X8: When no resource of the dataset has a ['url'] key the frame has no
    such column, and [load] of an existing file raises [KeyError] where a
    null URL would give the missing-URL error; the cache is not touched. *)
Theorem missing_url_column_key_error self name (filename : string)
    reload smart_return (pre post : list pydict) r w :
  api.get_dataset_resources (core.api self) name false
  = Ret (Some (pre ++ r :: post)) →
  Forall (λ x, x !! "name" ≠ Some (PStr filename)) pre →
  r !! "name" = Some (PStr filename) →
  Forall (λ x, x !! "url" = None) (pre ++ r :: post) →
  load self name (Some filename) reload smart_return w
  = (Raise (KeyError "url"), w).
Proof.
  intros Hrs Hpre Hr Hnone.
  rewrite (load_on_row _ _ _ _ _ _ _ _ _ _ _ _ _ _ Hrs Hpre Hr).
  unfold row_getitem. rewrite (filled_lookup_None r _ "url"); [done| |].
  - rewrite frame_columns. intros (x & Hx & [v Hv]).
    rewrite Forall_forall in Hnone. by rewrite (Hnone x Hx) in Hv.
  - rewrite Forall_forall in Hnone. apply Hnone.
    apply elem_of_app. right. by left.
Qed.

(** X9: The format is read before the download: when the record that [load]
    picks has a URL but no string for a format, the call raises
    ([AttributeError] on the null value, [KeyError] when no resource of
    the dataset has the key) and nothing is downloaded. *)
Theorem non_string_format_blocks_download self name (filename : string)
    reload smart_return (pre post : list pydict) r (url : string) w :
  api.get_dataset_resources (core.api self) name false
  = Ret (Some (pre ++ r :: post)) →
  Forall (λ x, x !! "name" ≠ Some (PStr filename)) pre →
  r !! "name" = Some (PStr filename) →
  r !! "url" = Some (PStr url) →
  (∀ fmt, r !! "format" ≠ Some (PStr fmt)) →
  ∃ e,
    load self name (Some filename) reload smart_return w = (Raise e, w)
    ∧ (e = KeyError "format"
       ∨ ∃ v, isna v = true ∧ e = AttributeError v "lower").
Proof.
  intros Hrs Hpre Hr Hurl Hfmt.
  rewrite (load_on_row _ _ _ _ _ _ _ _ _ _ _ _ _ _ Hrs Hpre Hr).
  unfold row_getitem. rewrite (filled_lookup_Some _ _ _ _ Hurl).
  unfold mbind at 1, M_bind at 1, lift at 1.
  unfold mbind at 1, M_bind at 1, lift at 1.
  destruct ((r ∪ gset_to_gmap PNaN _) !! "format") as [[| |fmt]|] eqn:E; cbn.
  - eexists. split; [reflexivity|]. right. by exists PNone.
  - eexists. split; [reflexivity|]. right. by exists PNaN.
  - apply filled_lookup_str in E. by destruct (Hfmt fmt).
  - eexists. split; [reflexivity|]. by left.
Qed.

(** What the part of [load] after the checks leaves in the call log. *)
Lemma load_tail_logged self name (filename url file_type : string)
    reload smart_return w res w' :
  (file_path ← cache.download_file requests_get (core.cache self)
                 name filename url reload;
   if smart_return && bool_decide (file_type ∈ SMART_RETURN_FILETYPES)
   then o ← load_file file_path file_type; mret (core.Object o)
   else mret (core.Path file_path)) w = (res, w') →
  download_calls w' = download_calls w ++ [(name, filename, url, reload)].
Proof.
  unfold mbind at 1, M_bind at 1.
  destruct (cache.download_file _ _ _ _ _ _ _) as [[p|e0] w1] eqn:Hdl;
    apply download_file_logged in Hdl.
  - destruct (_ && _); [|by intros [= <- <-]].
    unfold mbind, M_bind, core.load_file.
    destruct (files w1 !! p) as [content|]; [|by intros [= <- <-]].
    destruct (deserialize file_type content); by intros [= <- <-].
  - by intros [= <- <-].
Qed.

(** X10: [load] calls [download_file] at most once, and only for the dataset
    and file it was asked for, with [reload] as the force flag and the URL
    of the first resource of that name. *)
Theorem load_calls_download_at_most_once self name filename reload
    smart_return w res w' :
  load self name filename reload smart_return w = (res, w') →
  download_calls w' = download_calls w
  ∨ ∃ fn pre r post url,
      filename = Some fn
      ∧ api.get_dataset_resources (core.api self) name false
        = Ret (Some (pre ++ r :: post))
      ∧ Forall (λ x, x !! "name" ≠ Some (PStr fn)) pre
      ∧ r !! "name" = Some (PStr fn)
      ∧ r !! "url" = Some (PStr url)
      ∧ download_calls w' = download_calls w ++ [(name, fn, url, reload)].
Proof.
  intros Hload.
  destruct (load_cases requests_get SMART_RETURN_FILETYPES object deserialize str_lower
              self name filename reload smart_return w)
    as [[e He]|(fn & pre & r & post & url & fmt & -> & Hrs & Hpre & Hr & Hurl & Hfmt)].
  - left. rewrite He in Hload. by injection Hload as _ <-.
  - right. exists fn, pre, r, post, url. repeat (split; [done|]).
    rewrite (load_downloads_row _ _ _ _ _ _ _ _ _ _ _ _ _ _ _ _ Hrs Hpre Hr Hurl Hfmt)
      in Hload.
    by apply load_tail_logged in Hload.
Qed.

(** X11: The exceptions of [load]. An exception that leaves [load] is a fault
    of the catalog client, one of the four validation errors, a
    [KeyError] for a column the frame lacks, the [AttributeError] of a
    null format, a failed transfer or a failure of the loading routine.
    It is never a [CKANAPIError]. *)
Theorem load_error_taxonomy self name filename reload smart_return w e w' :
  load self name filename reload smart_return w = (Raise e, w') →
  (api.get_dataset_resources (core.api self) name true = Raise e
   ∨ validation_error name filename e
   ∨ e = KeyError "name" ∨ e = KeyError "url" ∨ e = KeyError "format"
   ∨ (∃ v, isna v = true ∧ e = AttributeError v "lower")
   ∨ (∃ url, e = RequestException url)
   ∨ (∃ detail, e = LoaderError detail))
  ∧ is_CKANAPIError e = false.
Proof.
  intros Hload.
  enough (api.get_dataset_resources (core.api self) name true = Raise e
          ∨ validation_error name filename e
          ∨ e = KeyError "name" ∨ e = KeyError "url" ∨ e = KeyError "format"
          ∨ (∃ v, isna v = true ∧ e = AttributeError v "lower")
          ∨ (∃ url, e = RequestException url)
          ∨ (∃ detail, e = LoaderError detail)) as H.
  { split; [done|].
    destruct H as [H|[H|[->|[->|[->|[(v & _ & ->)|[[url ->]|[detail ->]]]]]]]];
      try done.
    - by apply (raised_is_not_ckan (core.api self) name true e); left.
    - by destruct H as [->|[(_ & ? & ->)|[(? & ? & _ & ->)|(? & _ & ->)]]]. }
  destruct (api.get_dataset_resources (core.api self) name true)
    as [[df|]|e0] eqn:Hget.
  2: { unfold core.load in Hload. rewrite Hget in Hload.
       injection Hload as <- <-. right. left. by left. }
  2: { unfold core.load in Hload. rewrite Hget in Hload.
       injection Hload as <- <-. by left. }
  destruct (frame_found_inv _ _ _ Hget) as (rs & Hrs & ->).
  pose proof (column_values_frame rs "name") as Hcol.
  destruct filename as [fn|].
  2: { revert Hload. unfold core.load. rewrite Hget.
       unfold mbind at 1, M_bind at 1, lift at 1.
       unfold mbind at 1, M_bind at 1, lift at 1. rewrite Hcol.
       destruct (decide _); intros [= <- <-].
       - right. left. right. left. eauto.
       - right. right. by left. }
  destruct (decide ("name" ∈ columns (pd_DataFrame rs))) as [Hin|Hnin].
  2: { revert Hload. unfold core.load. rewrite Hget.
       unfold mbind at 1, M_bind at 1, lift at 1.
       unfold mbind at 1, M_bind at 1, lift at 1. rewrite Hcol.
       intros [= <- <-]. right. right. by left. }
  destruct (np_contains (PStr fn) (name_cell <$> rs)) eqn:Hc.
  2: { revert Hload. unfold core.load. rewrite Hget.
       unfold mbind at 1, M_bind at 1, lift at 1.
       unfold mbind at 1, M_bind at 1, lift at 1. rewrite Hcol.
       fold name_cell. rewrite Hc. cbn [negb]. intros [= <- <-].
       right. left. right. right. left. eauto. }
  destruct (named_record_exists _ _ Hc) as (pre & r & post & -> & Hpre & Hr).
  rewrite (load_on_row _ _ _ _ _ _ _ _ _ _ _ _ _ _ Hrs Hpre Hr) in Hload.
  revert Hload. unfold row_getitem.
  set (file_info := r ∪ gset_to_gmap PNaN _).
  destruct (file_info !! "url") as [[| |url]|] eqn:Hurl.
  1,2: intros [= <- <-]; right; left; right; right; right; eauto.
  2: { intros [= <- <-]. right. right. right. by left. }
  destruct (file_info !! "format") as [[| |fmt]|] eqn:Hfmt.
  1: { intros [= <- <-]. do 5 right. left. by exists PNone. }
  1: { intros [= <- <-]. do 5 right. left. by exists PNaN. }
  2: { intros [= <- <-]. do 4 right. by left. }
  intros Hload. apply load_tail_raises in Hload as [->|[detail ->]].
  - do 6 right. left. eauto.
  - do 7 right. eauto.
Qed.

(** X12: With [smart_return=False] the loaders play no part: the outcome of
    [load] and the world it leaves are the same for every set of formats
    and every loading routine. *)
Theorem plain_load_ignores_loaders (formats : list string)
    (routine : string → string → option object)
    self name filename reload w :
  load self name filename reload false w
  = core.load requests_get formats object routine str_lower
      self name filename reload false w.
Proof.
  destruct (load_cases requests_get SMART_RETURN_FILETYPES object deserialize str_lower
              self name filename reload false w)
    as [[e He]|(fn & pre & r & post & url & fmt & -> & Hrs & Hpre & Hr & Hurl & Hfmt)].
  - revert He. unfold core.load.
    destruct (api.get_dataset_resources (core.api self) name true)
      as [[df|]|e0]; [|done..].
    unfold mbind at 1 3, M_bind at 1 3, lift at 1 3.
    destruct filename as [fn|]; [|done].
    unfold mbind at 1 3, M_bind at 1 3, lift at 1 3.
    destruct (column_values df "name") as [names|]; [|done].
    destruct (negb _); [done|].
    unfold mbind at 1 3, M_bind at 1 3, lift at 1 3.
    destruct (select_eq df "name" (PStr fn) ≫= iloc0) as [file_info|]; [|done].
    unfold mbind at 1 3, M_bind at 1 3, lift at 1 3.
    destruct (row_getitem file_info "url") as [[| |url]|]; [done|done| |done].
    unfold mbind at 1 3, M_bind at 1 3, lift at 1 3.
    destruct (row_getitem file_info "format" ≫= lower_method str_lower); done.
  - rewrite !(load_downloads_row _ _ _ _ _ _ _ _ _ _ _ _ _ _ _ _
                Hrs Hpre Hr Hurl Hfmt).
    done.
Qed.

Lemma download_file_stores self dataset resource url force w p w1 :
  cache.download_file requests_get (core.cache self) dataset resource url force w
  = (Ret p, w1) →
  is_Some (files w1 !! cache.file_path (core.cache self) dataset resource).
Proof.
  unfold cache.download_file. cbn.
  destruct (bool_decide _) eqn:Hc; cbn.
  - destruct force; cbn.
    + destruct (requests_get url); [|done]. intros [= <- <-]. cbn.
      rewrite lookup_insert_eq. eauto.
    + intros [= <- <-]. by apply bool_decide_eq_true in Hc.
  - destruct (requests_get url); [|done]. intros [= <- <-]. cbn.
    rewrite lookup_insert_eq. eauto.
Qed.

(** X13: [load] and [is_file_cached] address the cache by the same pair: after
    a call of [load] that returned, [is_file_cached] answers true for the
    dataset and file name of that call. *)
Theorem loaded_file_is_cached self name (filename : string) reload
    smart_return w v w' :
  load self name (Some filename) reload smart_return w = (Ret v, w') →
  core.is_file_cached self name filename w' = (Ret true, w').
Proof.
  intros Hload.
  destruct (load_cases requests_get SMART_RETURN_FILETYPES object deserialize str_lower
              self name (Some filename) reload smart_return w)
    as [[e He]|(fn & pre & r & post & url & fmt & [= <-] & Hrs & Hpre & Hr & Hurl & Hfmt)];
    [congruence|].
  rewrite (load_downloads_row _ _ _ _ _ _ _ _ _ _ _ _ _ _ _ _ Hrs Hpre Hr Hurl Hfmt)
    in Hload.
  unfold mbind at 1, M_bind at 1 in Hload.
  destruct (cache.download_file _ _ _ _ _ _ _) as [[p|e] w1] eqn:Hdl; [|done].
  apply download_file_stores in Hdl.
  assert (w' = w1) as ->.
  { destruct (_ && _); [|by injection Hload as _ <-].
    revert Hload. unfold mbind, M_bind, core.load_file.
    destruct (files w1 !! p) as [content|]; [|done].
    destruct (deserialize _ content); [|done]. by intros [= _ <-]. }
  unfold core.is_file_cached, cache.file_exists.
  by rewrite (bool_decide_eq_true_2 _ Hdl).
Qed.

End FacadeEdges.

(** ** The edge scenarios, evaluated *)

Section EdgeScenarios.

Local Abbreviation load := (core.load file_server smart string read_text ascii_lower).

Lemma no_ckan_error_escapes_witness :
  is_CKANAPIError (RequestException "connection timed out") = false.
Proof.
  apply (no_ckan_error_escapes (api.mkAPI edge_portal) "offline" true
           (RequestException "connection timed out")).
  left. reflexivity.
Defined.

Lemma catalog_fault_witness :
  (∀ filename reload smart_return w,
     load edge_client "broken" filename reload smart_return w
     = (Raise (KeyError "resources"), w))
  ∧ (∀ overwrite w,
       core.download_dataset file_server edge_client "broken" overwrite w
       = (Raise (KeyError "resources"), w))
  ∧ core.get_available_files edge_client "broken"
    = Raise (KeyError "resources").
Proof.
  apply (catalog_fault_reaches_caller file_server smart string read_text ascii_lower
           edge_client "broken" true (KeyError "resources")).
  reflexivity.
Defined.

Lemma available_files_witness :
  core.get_available_files client "reports"
  = Ret (name_cell <$> reports_resources)
  ∧ length (name_cell <$> reports_resources) = length reports_resources.
Proof.
  apply (available_files_are_name_column client "reports" reports_resources).
  - reflexivity.
  - apply Exists_cons_hd. vm_compute. eauto.
Defined.

Lemma nameless_dataset_witness :
  core.get_available_files edge_client "empty" = Raise (KeyError "name")
  ∧ ∀ filename reload smart_return w,
      load edge_client "empty" filename reload smart_return w
      = (Raise (KeyError "name"), w).
Proof.
  apply (nameless_dataset_key_error file_server smart string read_text ascii_lower
           edge_client "empty" []).
  - reflexivity.
  - constructor.
Defined.

Lemma missing_url_column_witness :
  load edge_client "bare" (Some "a.csv") false true fresh
  = (Raise (KeyError "url"), fresh).
Proof.
  apply (missing_url_column_key_error file_server smart string read_text ascii_lower
           edge_client "bare" "a.csv" false true [] []
           {[ "name" := PStr "a.csv"; "format" := PStr "csv" ]} fresh).
  - reflexivity.
  - constructor.
  - reflexivity.
  - repeat constructor.
Defined.

Lemma non_string_format_witness :
  ∃ e,
    load edge_client "untyped" (Some "a.bin") false true fresh = (Raise e, fresh)
    ∧ (e = KeyError "format"
       ∨ ∃ v, isna v = true ∧ e = AttributeError v "lower").
Proof.
  apply (non_string_format_blocks_download file_server smart string read_text ascii_lower
           edge_client "untyped" "a.bin" false true [] []
           {[ "name" := PStr "a.bin"; "format" := PNone;
              "url" := PStr "http://x/a.bin" ]}
           "http://x/a.bin" fresh).
  - reflexivity.
  - constructor.
  - reflexivity.
  - reflexivity.
  - intros fmt. vm_compute. discriminate.
Defined.

Lemma download_at_most_once_witness :
  download_calls stocked = download_calls fresh
  ∨ ∃ fn pre r post url,
      Some "2023.csv" = Some fn
      ∧ api.get_dataset_resources (core.api client) "budget" false
        = Ret (Some (pre ++ r :: post))
      ∧ Forall (λ x : pydict, x !! "name" ≠ Some (PStr fn)) pre
      ∧ r !! "name" = Some (PStr fn)
      ∧ r !! "url" = Some (PStr url)
      ∧ download_calls stocked
        = download_calls fresh ++ [("budget", fn, url, false)].
Proof.
  apply (load_calls_download_at_most_once file_server smart string read_text ascii_lower
           client "budget" (Some "2023.csv") false true fresh
           (Ret (core.Object "csv:content of http://x/2023.csv")) stocked).
  vm_compute. reflexivity.
Defined.

Lemma load_error_taxonomy_witness :
  (api.get_dataset_resources (core.api edge_client) "untyped" true
   = Raise (AttributeError PNone "lower")
   ∨ validation_error "untyped" (Some "a.bin") (AttributeError PNone "lower")
   ∨ AttributeError PNone "lower" = KeyError "name"
   ∨ AttributeError PNone "lower" = KeyError "url"
   ∨ AttributeError PNone "lower" = KeyError "format"
   ∨ (∃ v, isna v = true ∧ AttributeError PNone "lower" = AttributeError v "lower")
   ∨ (∃ url, AttributeError PNone "lower" = RequestException url)
   ∨ (∃ detail, AttributeError PNone "lower" = LoaderError detail))
  ∧ is_CKANAPIError (AttributeError PNone "lower") = false.
Proof.
  apply (load_error_taxonomy file_server smart string read_text ascii_lower
           edge_client "untyped" (Some "a.bin") false true fresh
           (AttributeError PNone "lower") fresh).
  vm_compute. reflexivity.
Defined.

Lemma loaded_file_witness :
  core.is_file_cached client "budget" "2023.csv" stocked = (Ret true, stocked).
Proof.
  apply (loaded_file_is_cached file_server smart string read_text ascii_lower
           client "budget" "2023.csv" false true fresh
           (core.Object "csv:content of http://x/2023.csv")).
  vm_compute. reflexivity.
Defined.

End EdgeScenarios.
